(** * wikibee: configuration loading and settings resolution

    A shallow embedding of [wikibee/config.py] (the [WikibeeConfig] store,
    [get_config_file_path] and [load_config]) together with the settings
    resolver that consumes it, and the properties stated about them. *)

From Stdlib Require Import ZArith Ascii String.
From Stdlib.Strings Require Import Byte.
From stdpp Require Import base option gmap strings list.

Local Open Scope string_scope.
Local Open Scope Z_scope.

Set Warnings "-register-all".

(** ** Python values

    [tomli] hands back a [Dict[str, Any]]: tables become dicts, arrays become
    lists, and the leaves are [str], [int], [bool], [float] or date-time
    objects.  [None] never comes out of a TOML document but is the default of
    [WikibeeConfig.get]'s third parameter.  Floats and date-times are carried
    by the name of their type and their textual form: nothing below looks
    inside them. *)

Inductive pyval : Type :=
| VNone
| VBool (b : bool)
| VInt (n : Z)
| VStr (s : string)
| VScalar (type repr : string)
| VList (items : list pyval)
| VDict (d : gmap string pyval).

(** [type(v).__name__], as it appears in an [AttributeError] message. *)
Definition type_name (v : pyval) : string :=
  match v with
  | VNone => "NoneType"
  | VBool _ => "bool"
  | VInt _ => "int"
  | VStr _ => "str"
  | VScalar type _ => type
  | VList _ => "list"
  | VDict _ => "dict"
  end.

(** ** Exceptions and results *)

Inductive exn_class :=
| TOMLDecodeError
| UnicodeDecodeError
| PermissionError
| IsADirectoryError
| OSError
| AttributeError.

Global Instance exn_class_eq_dec : EqDecision exn_class.
Proof. solve_decision. Defined.

(** An exception object: its class and [str(e)].  Every class above derives
    from [Exception]. *)
Record exn := mkExn { exn_cls : exn_class; exn_str : string }.

Inductive result (A : Type) : Type :=
| Ok (a : A)
| Raise (e : exn).
Arguments Ok {A} a.
Arguments Raise {A} e.

Definition raises {A} (r : result A) : bool :=
  match r with Ok _ => false | Raise _ => true end.

(** ** The configuration store: [class WikibeeConfig] *)

Module Config.

(** [dict.get(key, default)] on a string-keyed dict. *)
Definition dict_get (d : gmap string pyval) (key : string) (default : pyval) : pyval :=
  match d !! key with
  | Some v => v
  | None => default
  end.

Definition is_dict (v : pyval) : bool :=
  match v with VDict _ => true | _ => false end.

(** [__init__] stores the mapping it is given under [self._data]. *)
Record WikibeeConfig := mkWikibeeConfig { _data : gmap string pyval }.

(** [no_get v]: the [AttributeError] raised by [v.get] when [v] is not a dict. *)
Definition no_get (v : pyval) : exn :=
  mkExn AttributeError ("'" ++ type_name v ++ "' object has no attribute 'get'").

(** [def get(self, section, key, default=None)]:
    [return self._data.get(section, {}).get(key, default)].
    The inner [.get] is an attribute lookup on whatever the outer one
    returned; only dicts have it. *)
Definition get (self : WikibeeConfig) (section key : string) (default : pyval)
  : result pyval :=
  match dict_get (_data self) section (VDict ∅) with
  | VDict sec => Ok (dict_get sec key default)
  | v => Raise (no_get v)
  end.

(** The call [cfg.get(section, key)], third argument left at its default. *)
Definition get2 (self : WikibeeConfig) (section key : string) : result pyval :=
  get self section key VNone.

End Config.

(** ** The process environment the loader runs in

    [load_config] reads two things from outside: the directory
    [typer.get_app_dir] answers with, and the file system.  It writes to one:
    standard output.  What the file system has for a path is a regular file
    that can be read, with its bytes; or something that is there but on which
    [open(path, "rb")] or the read inside [tomli.load] raises (no permission
    on the file, a directory, a device error); or something that cannot even
    be looked at, [stat] raising on the path (no search permission on a
    directory above it, a name too long), with the exception raised. *)

Inductive node :=
| Regular (content : list byte)
| Unreadable (e : exn)
| Unreachable (e : exn).

Record World := mkWorld {
  get_app_dir : string → string;
  fs : gmap string node;
  stdout : list string
}.

Definition with_stdout (w : World) (out : list string) : World :=
  {| get_app_dir := get_app_dir w; fs := fs w; stdout := out |}.

(** Computations that may raise and may touch the world. *)
Definition M (A : Type) : Type := World → result A * World.

Definition ret {A} (a : A) : M A := λ w, (Ok a, w).

Definition raise {A} (e : exn) : M A := λ w, (Raise e, w).

Definition bind {A B} (m : M A) (k : A → M B) : M B :=
  λ w, match m w with
       | (Ok a, w') => k a w'
       | (Raise e, w') => (Raise e, w')
       end.

Definition lift {A} (r : result A) : M A := λ w, (r, w).

(** [x ← m; k] and [m;; k] below are stdpp's notations for this [bind]. *)
Global Instance M_ret : MRet M := @ret.
Global Instance M_bind : MBind M := λ A B k m, bind m k.

(** [try: body / except ...: handler]: the handler sees the world as the body
    left it. *)
Definition try_except {A} (body : M A) (handler : exn → M A) : M A :=
  λ w, match body w with
       | (Ok a, w') => (Ok a, w')
       | (Raise e, w') => handler e w'
       end.

(** [print(line)]: one more line on standard output. *)
Definition print (line : string) : M unit :=
  λ w, (Ok tt, with_stdout w (stdout w ++ [line])).

(** [Path.exists()]: whether anything is at the path, readable or not.
    [pathlib] answers [False] when [stat] says the path is not there, and
    lets every other [OSError] of [stat] through. *)
Definition path_exists (path : string) : M bool :=
  λ w, match fs w !! path with
       | Some (Unreachable e) => (Raise e, w)
       | Some _ => (Ok true, w)
       | None => (Ok false, w)
       end.

(** [open(path, "rb")] followed by reading the whole file. *)
Definition open_rb (path : string) : M (list byte) :=
  λ w, match fs w !! path with
       | Some (Regular content) => (Ok content, w)
       | Some (Unreadable e) => (Raise e, w)
       | Some (Unreachable e) => (Raise e, w)
       | None => (Raise (mkExn OSError ("[Errno 2] No such file or directory: '" ++ path ++ "'")), w)
       end.

Module Loader.
Import Config.

Section WithParser.

(** [tomli]'s parser, from the bytes of a file to the document or the
    exception: [TOMLDecodeError] for a grammar violation,
    [UnicodeDecodeError] for bytes that are not UTF-8. *)
Variable tomli_loads : list byte → result (gmap string pyval).

(** [tomli.load(f)] for [f] opened on [path]. *)
Definition tomli_load (path : string) : M (gmap string pyval) :=
  content ← open_rb path;
  lift (tomli_loads content).

(** [pathlib]'s [Path(dir) / name], as [str] and an f-string print it and as
    [open] takes it: the two parts joined with the separator of the platform
    and normalised the way [pathlib] does. *)
Variable path_join : string → string → string.

(** [def get_config_file_path() -> Path]. *)
Definition get_config_file_path : M string :=
  λ w, let app_dir := get_app_dir w "wikibee" in
       let config_dir := app_dir in
       (Ok (path_join config_dir "config.toml"), w).

Definition parse_warning (config_path : string) (e : exn) : string :=
  "Warning: Could not parse config file " ++ config_path ++ ": " ++ exn_str e.

Definition read_warning (config_path : string) (e : exn) : string :=
  "Warning: Could not read config file " ++ config_path ++ ": " ++ exn_str e.

(** [def load_config() -> WikibeeConfig].  [config_data] starts as [{}] and is
    only assigned when [tomli.load] returns; the first [except] clause takes
    [tomli.TOMLDecodeError], the second every other [Exception]. *)
Definition load_config : M WikibeeConfig :=
  config_path ← get_config_file_path;
  present ← path_exists config_path;
  config_data ←
    (if present : bool then
       try_except (tomli_load config_path)
         (λ e, match exn_cls e with
               | TOMLDecodeError =>
                   print (parse_warning config_path e);; ret ∅
               | _ =>
                   print (read_warning config_path e);; ret ∅
               end)
     else ret ∅);
  ret (mkWikibeeConfig config_data).

(** The path [load_config] looks at in world [w]. *)
Definition config_path_of (w : World) : string :=
  path_join (get_app_dir w "wikibee") "config.toml".

(** What the [try] block comes to in world [w]: the document or the
    exception when it is entered, and nothing when it is not (the path does
    not exist, or [exists()] itself raised). *)
Definition attempt (w : World) : option (result (gmap string pyval)) :=
  match fs w !! config_path_of w with
  | None => None
  | Some (Regular content) => Some (tomli_loads content)
  | Some (Unreadable e) => Some (Raise e)
  | Some (Unreachable e) => None
  end.

End WithParser.

End Loader.

(** ** What one call of [load_config] comes to *)

Module Outcome.
Import Config Loader.

(** The line printed for exception [e]: the first [except] clause for
    [tomli.TOMLDecodeError], the second for anything else. *)
Definition warning_for (path : string) (e : exn) : string :=
  if decide (exn_cls e = TOMLDecodeError)
  then parse_warning path e else read_warning path e.

(** What a call in world [w] ends with, a configuration or an exception, and
    the lines printed on the way. *)
Definition outcome (tomli_loads : list byte → result (gmap string pyval))
    (path_join : string → string → string)
    (w : World) : result WikibeeConfig * list string :=
  match fs w !! config_path_of path_join w with
  | None => (Ok (mkWikibeeConfig ∅), [])
  | Some (Regular content) =>
      match tomli_loads content with
      | Ok doc => (Ok (mkWikibeeConfig doc), [])
      | Raise e =>
          (Ok (mkWikibeeConfig ∅), [warning_for (config_path_of path_join w) e])
      end
  | Some (Unreadable e) =>
      (Ok (mkWikibeeConfig ∅), [warning_for (config_path_of path_join w) e])
  | Some (Unreachable e) => (Raise e, [])
  end.

End Outcome.

(** ** The settings resolver

    The resolver is part of the CLI entry point, [wikibee/cli.py], which is
    not among the sources: only [config.py] and the test suite are.  Every
    definition of this module is therefore written from the specification
    (sections 3, 4.4 and 6), and reads the config file through the
    [WikibeeConfig.get] defined above. *)

Module Resolver.
Import Config.

(** Modelled from the spec: the resolvable settings of section 3, whose
    declaration is in the missing CLI module. *)
Inductive Field :=
| FOutputDir | FRetries | FNoSave | FVerbose | FYolo | FSearchLimit | FTtsServerUrl.

Global Instance Field_eq_dec : EqDecision Field.
Proof. solve_decision. Defined.

Definition all_fields : list Field :=
  [FOutputDir; FRetries; FNoSave; FVerbose; FYolo; FSearchLimit; FTtsServerUrl].

(** Modelled from the spec: the [ResolvedSettings] record of section 3, with
    the fields and types listed there; its declaration is in the missing CLI
    module. *)
Record ResolvedSettings := mkResolvedSettings {
  output_dir : option string;
  retries : Z;
  no_save : bool;
  verbose : bool;
  yolo : bool;
  search_limit : Z;
  tts_server_url : option string
}.

(** Modelled from the spec: the name each field carries on
    [ResolvedSettings] (section 3; the record is in the missing CLI module). *)
Definition field_name (f : Field) : string :=
  match f with
  | FOutputDir => "output_dir"
  | FRetries => "retries"
  | FNoSave => "no_save"
  | FVerbose => "verbose"
  | FYolo => "yolo"
  | FSearchLimit => "search_limit"
  | FTtsServerUrl => "tts_server_url"
  end.

(** Modelled from the spec: what the flag layer reports (sections 4.4 and 6;
    the flags are declared in the missing CLI module): per field, the value
    when the flag was explicitly passed, [None] when it was left alone. *)
Record CliFlags := mkCliFlags {
  cli_output_dir : option string;
  cli_retries : option Z;
  cli_no_save : option bool;
  cli_verbose : option bool;
  cli_yolo : option bool;
  cli_search_limit : option Z;
  cli_tts_server_url : option string
}.

Definition no_flags : CliFlags :=
  mkCliFlags None None None None None None None.

(** Modelled from the spec: the alias table of section 4.4 and the file format
    of section 6.  The resolver is part of the CLI entry point
    ([wikibee/cli.py]), which is not among the sources; this is the
    [(section, key)] pair under which each field is looked up in the store. *)
Definition config_key (f : Field) : string * string :=
  match f with
  | FOutputDir => ("general", "output_dir")
  | FRetries => ("general", "retries")
  | FNoSave => ("general", "no_save")
  | FVerbose => ("general", "verbose")
  | FYolo => ("general", "auto_select")
  | FSearchLimit => ("search", "search_limit")
  | FTtsServerUrl => ("tts", "server_url")
  end.

(** *** Text handling for the environment layer *)

Definition upper_ascii (c : ascii) : ascii :=
  let n := nat_of_ascii c in
  if ((97 <=? n) && (n <=? 122))%nat then ascii_of_nat (n - 32) else c.

Definition lower_ascii (c : ascii) : ascii :=
  let n := nat_of_ascii c in
  if ((65 <=? n) && (n <=? 90))%nat then ascii_of_nat (n + 32) else c.

Fixpoint map_string (f : ascii → ascii) (s : string) : string :=
  match s with
  | EmptyString => EmptyString
  | String c s' => String (f c) (map_string f s')
  end.

Definition upper : string → string := map_string upper_ascii.
Definition lower : string → string := map_string lower_ascii.

Definition digit_of (c : ascii) : option Z :=
  let n := nat_of_ascii c in
  if ((48 <=? n) && (n <=? 57))%nat then Some (Z.of_nat (n - 48)) else None.

Fixpoint parse_digits (acc : Z) (s : string) : option Z :=
  match s with
  | EmptyString => Some acc
  | String c s' =>
      match digit_of c with
      | Some d => parse_digits (10 * acc + d) s'
      | None => None
      end
  end.

(** Modelled from the spec: section 4.4, "parse as a base-10 integer; on parse
    failure, treat as absent".  The resolver's own parser is in the missing
    CLI module; this one takes an optional minus sign and at least one digit. *)
Definition parse_int (s : string) : option Z :=
  match s with
  | EmptyString => None
  | String "-" EmptyString => None
  | String "-" ds => Z.opp <$> parse_digits 0 ds
  | _ => parse_digits 0 s
  end.

(** Modelled from the spec: section 4.4, the textual reading of a boolean,
    case-insensitive; the resolver's own is in the missing CLI module. *)
Definition parse_bool (s : string) : option bool :=
  let t := lower s in
  if existsb (String.eqb t) ["1"; "true"; "yes"; "on"] then Some true
  else if existsb (String.eqb t) ["0"; "false"; "no"; "off"; ""] then Some false
  else None.

(** Modelled from the spec: the type coercion policy of section 4.4 (the
    resolver's own is in the missing CLI module).  A value of the field's own
    type is used as it is, text is parsed, and anything else does not supply
    the field. *)
Definition coerce_bool (v : pyval) : option bool :=
  match v with
  | VBool b => Some b
  | VStr s => parse_bool s
  | _ => None
  end.

(** Modelled from the spec: integer fields of the same policy. *)
Definition coerce_int (v : pyval) : option Z :=
  match v with
  | VInt n => Some n
  | VStr s => parse_int s
  | _ => None
  end.

(** Modelled from the spec: string fields of the same policy, passed through
    verbatim. *)
Definition coerce_str (v : pyval) : option string :=
  match v with
  | VStr s => Some s
  | _ => None
  end.

Section Resolve.

(** The environment naming convention and the built-in defaults belong to the
    CLI; the resolver takes both as given. *)
Variable prefix : string.
Variable defaults : ResolvedSettings.

(** Modelled from the spec: section 6, "a fixed prefix plus the field's name in
    upper case with underscores"; the table is in the missing CLI module. *)
Definition env_var (f : Field) : string := prefix ++ upper (field_name f).

(** Modelled from the spec: section 4.4, source 2 (the resolver is in the
    missing CLI module).  An environment variable supplies a value if it is
    present and non-empty; what it supplies is text. *)
Definition env_lookup (environment : gmap string string) (f : Field) : option pyval :=
  match environment !! env_var f with
  | Some s => if String.eqb s "" then None else Some (VStr s)
  | None => None
  end.

(** Modelled from the spec: section 4.4, source 3 (the resolver is in the
    missing CLI module).  The store is asked through [WikibeeConfig.get] with
    the field's [(section, key)] pair and [None] as the default, so that an
    absent key shows; a lookup that raises supplies nothing (section 7: no
    fault in this subsystem is fatal). *)
Definition file_lookup (store : WikibeeConfig) (f : Field) : option pyval :=
  match get2 store (config_key f).1 (config_key f).2 with
  | Ok VNone => None
  | Ok v => Some v
  | Raise _ => None
  end.

(** The first source in the list that supplies a value. *)
Fixpoint first_supplied {A} (sources : list (option A)) : option A :=
  match sources with
  | [] => None
  | Some a :: _ => Some a
  | None :: rest => first_supplied rest
  end.

(** Modelled from the spec: the precedence chain of section 4.4 for one field
    (the resolver is in the missing CLI module): the explicit CLI value, then
    the environment, then the file, each of the two after coercion to the
    field's type. *)
Definition chain {A} (coerce : pyval → option A) (cli : option A)
    (environment : gmap string string) (store : WikibeeConfig) (f : Field)
  : option A :=
  first_supplied
    [cli; env_lookup environment f ≫= coerce; file_lookup store f ≫= coerce].

Definition or_default {A} (dflt : A) (o : option A) : A :=
  match o with Some a => a | None => dflt end.

Definition or_default_opt {A} (dflt : option A) (o : option A) : option A :=
  match o with Some a => Some a | None => dflt end.

(** Modelled from the spec: [resolve(cli_flags, environment, store)] of section
    4.4, which the missing CLI module implements.  Every field goes through the
    same chain and ends on its hardcoded default. *)
Definition resolve (cli_flags : CliFlags) (environment : gmap string string)
    (store : WikibeeConfig) : ResolvedSettings :=
  let go {A} (coerce : pyval → option A) (cli : option A) (f : Field) :=
    chain coerce cli environment store f in
  {| output_dir :=
       or_default_opt (output_dir defaults)
         (go coerce_str (cli_output_dir cli_flags) FOutputDir);
     retries :=
       or_default (retries defaults)
         (go coerce_int (cli_retries cli_flags) FRetries);
     no_save :=
       or_default (no_save defaults)
         (go coerce_bool (cli_no_save cli_flags) FNoSave);
     verbose :=
       or_default (verbose defaults)
         (go coerce_bool (cli_verbose cli_flags) FVerbose);
     yolo :=
       or_default (yolo defaults)
         (go coerce_bool (cli_yolo cli_flags) FYolo);
     search_limit :=
       or_default (search_limit defaults)
         (go coerce_int (cli_search_limit cli_flags) FSearchLimit);
     tts_server_url :=
       or_default_opt (tts_server_url defaults)
         (go coerce_str (cli_tts_server_url cli_flags) FTtsServerUrl) |}.

End Resolve.

(** *** A uniform view of the typed records, one Python value per field *)

Definition opt_str (o : option string) : pyval :=
  match o with Some s => VStr s | None => VNone end.

Definition field_value (f : Field) (r : ResolvedSettings) : pyval :=
  match f with
  | FOutputDir => opt_str (output_dir r)
  | FRetries => VInt (retries r)
  | FNoSave => VBool (no_save r)
  | FVerbose => VBool (verbose r)
  | FYolo => VBool (yolo r)
  | FSearchLimit => VInt (search_limit r)
  | FTtsServerUrl => opt_str (tts_server_url r)
  end.

Definition cli_value (f : Field) (c : CliFlags) : option pyval :=
  match f with
  | FOutputDir => VStr <$> cli_output_dir c
  | FRetries => VInt <$> cli_retries c
  | FNoSave => VBool <$> cli_no_save c
  | FVerbose => VBool <$> cli_verbose c
  | FYolo => VBool <$> cli_yolo c
  | FSearchLimit => VInt <$> cli_search_limit c
  | FTtsServerUrl => VStr <$> cli_tts_server_url c
  end.

(** The coercion that applies to a field, with its result as a Python value. *)
Definition coerce_for (f : Field) (v : pyval) : option pyval :=
  match f with
  | FOutputDir | FTtsServerUrl => VStr <$> coerce_str v
  | FRetries | FSearchLimit => VInt <$> coerce_int v
  | FNoSave | FVerbose | FYolo => VBool <$> coerce_bool v
  end.

(** *** What a source is expected to supply, in the words of section 4.4

    These are stated on their own, apart from the parsers above, so that the
    chain can be checked against them. *)

Inductive ftype := TStr | TInt | TBool.

(** Modelled from the spec: the type of each field of [ResolvedSettings]
    (section 3; the record is in the missing CLI module). *)
Definition field_type (f : Field) : ftype :=
  match f with
  | FOutputDir | FTtsServerUrl => TStr
  | FRetries | FSearchLimit => TInt
  | FNoSave | FVerbose | FYolo => TBool
  end.

(** A value of the field's own type, as a config file carries it. *)
Definition well_typed (f : Field) (v : pyval) : Prop :=
  match field_type f, v with
  | TStr, VStr _ | TInt, VInt _ | TBool, VBool _ => True
  | _, _ => False
  end.

(** A numeral written out: the digits, most significant first, and the
    number they denote in base 10. *)
Definition digit_char (d : nat) : ascii := ascii_of_nat (48 + d).

Fixpoint decimal (digits : list nat) : string :=
  match digits with
  | [] => EmptyString
  | d :: rest => String (digit_char d) (decimal rest)
  end.

Definition decimal_value (digits : list nat) : Z :=
  fold_left (λ acc d, 10 * acc + Z.of_nat d) digits 0.

(** The same letter up to case: equal, or a capital and its small letter. *)
Definition same_letter (c d : ascii) : Prop :=
  c = d ∨
  ((65 ≤ nat_of_ascii c)%nat ∧ (nat_of_ascii c ≤ 90)%nat ∧
   nat_of_ascii d = (nat_of_ascii c + 32)%nat).

(** [spelled t word]: the text [t] is [word] (given in small letters) in any
    mix of capitals and small letters. *)
Inductive spelled : string → string → Prop :=
| spelled_end : spelled EmptyString EmptyString
| spelled_letter c d t word :
    same_letter c d → spelled t word → spelled (String c t) (String d word).

(** Modelled from the spec: what a text supplies for a field under the
    coercion policy of section 4.4 (the resolver's own reading is in the
    missing CLI module).  Text for a string field is the value; a base-10
    numeral, with or without a minus sign, is its number; and
    ["1"], ["true"], ["yes"], ["on"] are [true], ["0"], ["false"], ["no"],
    ["off"] are [false], whatever the case of the letters. *)
Inductive reads_as (f : Field) : string → pyval → Prop :=
| reads_text t :
    field_type f = TStr → reads_as f t (VStr t)
| reads_numeral digits :
    field_type f = TInt → digits ≠ [] → Forall (λ d, (d < 10)%nat) digits →
    reads_as f (decimal digits) (VInt (decimal_value digits))
| reads_negative digits :
    field_type f = TInt → digits ≠ [] → Forall (λ d, (d < 10)%nat) digits →
    reads_as f (String "-" (decimal digits)) (VInt (- decimal_value digits))
| reads_true t word :
    field_type f = TBool → word ∈ ["1"; "true"; "yes"; "on"] →
    spelled t word → reads_as f t (VBool true)
| reads_false t word :
    field_type f = TBool → word ∈ ["0"; "false"; "no"; "off"] →
    spelled t word → reads_as f t (VBool false).

(** *** The resolver as a step of the program

    The same chain, written as the sequence of calls it makes: one lookup in
    the store per field, each inside its own [try], then the record. *)

Section Call.
Variable prefix : string.
Variable defaults : ResolvedSettings.




End Call.

End Resolver.

(** ** Sample inputs *)

Module Sample.
Import Config Loader Resolver.

(** A stand-in for [tomli] on the files the test suite writes: the empty file
    is the empty document, and ["invalid toml = ["] (or anything else) is
    rejected where the value should start. *)
Definition loads (content : list byte) : result (gmap string pyval) :=
  match content with
  | [] => Ok ∅
  | _ => Raise (mkExn TOMLDecodeError "Invalid value (at line 1, column 16)")
  end.

Definition app_dir : string := "/home/user/.config/wikibee".
Definition config_toml : string := "/home/user/.config/wikibee/config.toml".

(** [pathlib]'s join on a POSIX directory already in normal form. *)
Definition join (dir name : string) : string := dir ++ "/" ++ name.

Definition world_with (files : gmap string node) : World :=
  {| get_app_dir := λ _, app_dir; fs := files; stdout := [] |}.

Definition no_file : World := world_with ∅.
Definition empty_file : World := world_with {[ config_toml := Regular [] ]}.
Definition invalid_file : World :=
  world_with {[ config_toml := Regular [x69; x6e; x76; x20; x3d; x20; x5b]%byte ]}.
Definition denied : exn :=
  mkExn PermissionError ("[Errno 13] Permission denied: '" ++ config_toml ++ "'").
Definition denied_file : World :=
  world_with {[ config_toml := Unreadable denied ]}.

(** The directory itself cannot be searched: [stat] on the path raises. *)
Definition denied_dir : World :=
  world_with {[ config_toml := Unreachable denied ]}.

Definition defaults : ResolvedSettings :=
  mkResolvedSettings None 3 false false false 10 None.

(** [[general] output_dir = "/tmp/from_config"], [auto_select = true]. *)
Definition general : gmap string pyval :=
  {[ "output_dir" := VStr "/tmp/from_config"; "auto_select" := VBool true ]}.
Definition store : WikibeeConfig :=
  mkWikibeeConfig {[ "general" := VDict general ]}.

(** A document with a key outside any table: [retries = 7] at top level. *)
Definition flat_store : WikibeeConfig :=
  mkWikibeeConfig {[ "retries" := VInt 7 ]}.

Definition env : gmap string string :=
  {[ "WIKIBEE_OUTPUT_DIR" := "/tmp/from_env" ]}.

Definition flags : CliFlags :=
  mkCliFlags (Some "/tmp/from_cli") None None None None None None.

End Sample.

(** * Properties *)

(** ** [WikibeeConfig.get] *)

Module ConfigFacts.
Import Config.

Section Get.
Context (data : gmap string pyval) (section key : string) (default : pyval).

Lemma get_no_section :
  data !! section = None →
  get (mkWikibeeConfig data) section key default = Ok default.
Proof.
  intros Hs. unfold get, dict_get; simpl. rewrite Hs.
  by rewrite lookup_empty.
Qed.

Lemma get_in_section (sec : gmap string pyval) :
  data !! section = Some (VDict sec) →
  get (mkWikibeeConfig data) section key default = Ok (dict_get sec key default).
Proof.
  intros Hs. unfold get; simpl. unfold dict_get at 1. by rewrite Hs.
Qed.

Lemma get_not_a_table (v : pyval) :
  data !! section = Some v → is_dict v = false →
  get (mkWikibeeConfig data) section key default = Raise (no_get v).
Proof.
  intros Hs Hv. unfold get; simpl. unfold dict_get at 1. rewrite Hs.
  by destruct v.
Qed.

End Get.

(** C3, as the code has it.  For any stored mapping, section, key and default
    such that what is stored under the section name, if anything, is itself a
    mapping: when the section is there and holds the key, [get] returns the
    value stored under [data[section][key]], whatever its type and unchanged;
    when the section is absent, or the section is there and the key is not,
    it returns the default exactly as given; and these cases are all there
    is, so [get] returns. *)
Theorem get_stored_or_default
    (data : gmap string pyval) (section key : string) (default : pyval) :
  (∀ sec v, data !! section = Some (VDict sec) → sec !! key = Some v →
     get (mkWikibeeConfig data) section key default = Ok v) ∧
  (data !! section = None →
     get (mkWikibeeConfig data) section key default = Ok default) ∧
  (∀ sec, data !! section = Some (VDict sec) → sec !! key = None →
     get (mkWikibeeConfig data) section key default = Ok default) ∧
  ((∀ v, data !! section = Some v → is_dict v = true) →
     ∃ r, get (mkWikibeeConfig data) section key default = Ok r ∧
          (r = default ∨
           ∃ sec, data !! section = Some (VDict sec) ∧ sec !! key = Some r)).
Proof.
  split_and!.
  - intros sec v Hs Hk. rewrite (get_in_section _ _ _ _ sec Hs).
    unfold dict_get. by rewrite Hk.
  - apply get_no_section.
  - intros sec Hs Hk. rewrite (get_in_section _ _ _ _ sec Hs).
    unfold dict_get. by rewrite Hk.
  - intros Hshape. destruct (data !! section) as [v|] eqn:Hs.
    + specialize (Hshape _ eq_refl). destruct v; try discriminate.
      rewrite (get_in_section _ _ _ _ d Hs). unfold dict_get.
      destruct (d !! key) as [r|] eqn:Hk; eauto 6.
    + rewrite get_no_section by done. eauto.
Qed.

(** The call at the end of [config.py], on an empty configuration and on one
    that sets the key. *)
Example get_output_dir_not_set :
  get (mkWikibeeConfig ∅) "general" "output_dir" (VStr "not_set")
  = Ok (VStr "not_set").
Proof. reflexivity. Qed.

Example get_output_dir_set :
  get Sample.store "general" "output_dir" (VStr "not_set")
  = Ok (VStr "/tmp/from_config").
Proof. reflexivity. Qed.

Example get_on_float_section :
  get (mkWikibeeConfig {[ "general" := VScalar "float" "1.5" ]})
      "general" "output_dir" (VStr "not_set")
  = Raise (mkExn AttributeError "'float' object has no attribute 'get'").
Proof. reflexivity. Qed.

(** C3, as stated, fails: under a section name bound to a number there is no
    key to be found, and [get] raises instead of returning the default. *)
Lemma get_raises_instead_of_default :
  ({[ "general" := VInt 1 ]} : gmap string pyval) !! "general" = Some (VInt 1) ∧
  get (mkWikibeeConfig {[ "general" := VInt 1 ]}) "general" "output_dir"
      (VStr "not_set")
  = Raise (mkExn AttributeError "'int' object has no attribute 'get'") ∧
  get (mkWikibeeConfig {[ "general" := VInt 1 ]}) "general" "output_dir"
      (VStr "not_set")
  ≠ Ok (VStr "not_set").
Proof. split_and!; [reflexivity | reflexivity | discriminate]. Qed.

Lemma get_stored_or_default_witness :
  get Sample.store "general" "auto_select" VNone = Ok (VBool true) ∧
  get Sample.store "tts" "server_url" (VStr "dflt") = Ok (VStr "dflt") ∧
  get Sample.store "general" "retries" (VInt 3) = Ok (VInt 3).
Proof.
  split_and!.
  - apply (get_stored_or_default _ "general" "auto_select" VNone)
      with (sec := Sample.general); reflexivity.
  - apply (get_stored_or_default _ "tts" "server_url" (VStr "dflt")).
    reflexivity.
  - apply (get_stored_or_default _ "general" "retries" (VInt 3))
      with (sec := Sample.general); reflexivity.
Defined.

(** C9.  [get] is partial.  If the stored mapping sends the section name to
    anything that is not itself a mapping, the call raises [AttributeError]
    and the default is not returned; and [get] comes back without raising
    exactly when the value it touches under the section name, if there is
    one, is a mapping. *)
Theorem get_raises_on_non_table
    (data : gmap string pyval) (section key : string) (default : pyval) :
  (∀ v, data !! section = Some v → is_dict v = false →
     get (mkWikibeeConfig data) section key default = Raise (no_get v)) ∧
  (raises (get (mkWikibeeConfig data) section key default) = false ↔
     ∀ v, data !! section = Some v → is_dict v = true).
Proof.
  split.
  - intros v. apply get_not_a_table.
  - destruct (data !! section) as [v|] eqn:Hs.
    + destruct (is_dict v) eqn:Hv.
      * destruct v; try discriminate.
        rewrite (get_in_section _ _ _ _ d Hs). simpl.
        split; [|done]. intros _ v' [= <-]. done.
      * rewrite (get_not_a_table _ _ _ _ v Hs Hv). simpl.
        split; [done|]. intros H. specialize (H v eq_refl). congruence.
    + rewrite get_no_section by done. simpl. split; [|done].
      intros _ v' ?. discriminate.
Qed.

Lemma get_raises_on_non_table_witness :
  get Sample.flat_store "retries" "anything" (VInt 3)
  = Raise (mkExn AttributeError "'int' object has no attribute 'get'").
Proof.
  apply (get_raises_on_non_table _ "retries" "anything" (VInt 3)) with (v := VInt 7);
    reflexivity.
Defined.

(** C10.  The third parameter of [get] may be left out and is then [None]:
    whenever the section is absent, or is a mapping without the key, the call
    [get(section, key)] returns [None]. *)
Theorem get_default_is_None
    (data : gmap string pyval) (section key : string) :
  data !! section = None ∨
    (∃ sec, data !! section = Some (VDict sec) ∧ sec !! key = None) →
  get2 (mkWikibeeConfig data) section key = Ok VNone.
Proof.
  unfold get2. intros [Hs | (sec & Hs & Hk)].
  - by apply get_no_section.
  - rewrite (get_in_section _ _ _ _ sec Hs). unfold dict_get. by rewrite Hk.
Qed.

Lemma get_default_is_None_witness :
  get2 Sample.store "general" "verbose" = Ok VNone ∧
  get2 Sample.store "search" "search_limit" = Ok VNone.
Proof.
  split.
  - apply (get_default_is_None _ "general" "verbose").
    right. exists Sample.general. split; reflexivity.
  - apply (get_default_is_None _ "search" "search_limit").
    left. reflexivity.
Defined.

End ConfigFacts.

(** ** [load_config] *)

Module LoaderFacts.
Import Config Loader.

(** The warning [load_config] prints for exception [e]: which of the two
    [except] clauses takes it. *)
Lemma warning_cases (path : string) (e : exn) :
  match exn_cls e with
  | TOMLDecodeError => parse_warning path e
  | _ => read_warning path e
  end
  = if decide (exn_cls e = TOMLDecodeError)
    then parse_warning path e else read_warning path e.
Proof. by destruct (exn_cls e). Qed.

Section WithParser.
Variable tomli_loads : list byte → result (gmap string pyval).
Variable path_join : string → string → string.

Local Abbreviation load_config := (load_config tomli_loads path_join).
Local Abbreviation attempt := (attempt tomli_loads path_join).
Local Abbreviation config_path_of := (config_path_of path_join).

(** One equation for the whole function, by what is at the path. *)
Lemma load_config_eq (w : World) :
  load_config w =
  match fs w !! config_path_of w with
  | Some (Unreachable e) => (Raise e, w)
  | _ =>
      match attempt w with
      | None => (Ok (mkWikibeeConfig ∅), w)
      | Some (Ok doc) => (Ok (mkWikibeeConfig doc), w)
      | Some (Raise e) =>
          (Ok (mkWikibeeConfig ∅),
           with_stdout w
             (stdout w ++
                [if decide (exn_cls e = TOMLDecodeError)
                 then parse_warning (config_path_of w) e
                 else read_warning (config_path_of w) e]))
      end
  end.
Proof.
  unfold Loader.load_config, Loader.attempt, mbind, M_bind, bind,
    get_config_file_path, path_exists; simpl.
  fold (config_path_of w).
  destruct (fs w !! config_path_of w) as [[content|e|e]|] eqn:Hfs; simpl.
  - unfold try_except, tomli_load, mbind, M_bind, bind, open_rb, lift.
    rewrite Hfs. destruct (tomli_loads content) as [doc|e]; [done|].
    rewrite <- warning_cases. by destruct (exn_cls e).
  - unfold try_except, tomli_load, mbind, M_bind, bind, open_rb, lift.
    rewrite Hfs. rewrite <- warning_cases. by destruct (exn_cls e).
  - done.
  - done.
Qed.

Lemma attempt_missing (w : World) :
  fs w !! config_path_of w = None → attempt w = None.
Proof. unfold Loader.attempt. by intros ->. Qed.

Lemma attempt_regular (w : World) (content : list byte) :
  fs w !! config_path_of w = Some (Regular content) →
  attempt w = Some (tomli_loads content).
Proof. unfold Loader.attempt. by intros ->. Qed.

Lemma attempt_unreadable (w : World) (e : exn) :
  fs w !! config_path_of w = Some (Unreadable e) →
  attempt w = Some (Raise e).
Proof. unfold Loader.attempt. by intros ->. Qed.

Lemma attempt_unreachable (w : World) (e : exn) :
  fs w !! config_path_of w = Some (Unreachable e) → attempt w = None.
Proof. unfold Loader.attempt. by intros ->. Qed.

(** When the [try] block was entered, the path is not one [stat] fails on. *)
Lemma attempt_entered (w : World) (r : result (gmap string pyval)) :
  attempt w = Some r → ∀ e, fs w !! config_path_of w ≠ Some (Unreachable e).
Proof.
  unfold Loader.attempt. intros Hr e He. rewrite He in Hr. discriminate.
Qed.

(** The function away from the one state in which [exists()] raises. *)
Lemma load_config_reachable (w : World) :
  (∀ e, fs w !! config_path_of w ≠ Some (Unreachable e)) →
  load_config w =
  match attempt w with
  | None => (Ok (mkWikibeeConfig ∅), w)
  | Some (Ok doc) => (Ok (mkWikibeeConfig doc), w)
  | Some (Raise e) =>
      (Ok (mkWikibeeConfig ∅),
       with_stdout w
         (stdout w ++
            [if decide (exn_cls e = TOMLDecodeError)
             then parse_warning (config_path_of w) e
             else read_warning (config_path_of w) e]))
  end.
Proof.
  intros Hreach. rewrite load_config_eq.
  destruct (fs w !! config_path_of w) as [[content|e|e]|] eqn:Hfs; try done.
  by destruct (Hreach e).
Qed.

Lemma load_config_unreachable (w : World) (e : exn) :
  fs w !! config_path_of w = Some (Unreachable e) →
  load_config w = (Raise e, w).
Proof. intros Hfs. by rewrite load_config_eq, Hfs. Qed.

(** The world after the call: nothing but standard output can differ. *)
Lemma load_config_frame (w : World) :
  get_app_dir (load_config w).2 = get_app_dir w ∧ fs (load_config w).2 = fs w.
Proof.
  rewrite load_config_eq.
  destruct (fs w !! config_path_of w) as [[content|e|e]|];
    by destruct (attempt w) as [[doc|e']|].
Qed.

Lemma load_config_silent (w : World) :
  (∀ e, attempt w ≠ Some (Raise e)) → stdout (load_config w).2 = stdout w.
Proof.
  intros Hok. rewrite load_config_eq.
  destruct (fs w !! config_path_of w) as [[content|e|e]|]; try done;
    (destruct (attempt w) as [[doc|e']|]; [done| |done]; by destruct (Hok e')).
Qed.

Lemma load_config_failure (w : World) (e : exn) :
  attempt w = Some (Raise e) →
  load_config w =
    (Ok (mkWikibeeConfig ∅),
     with_stdout w
       (stdout w ++ [if decide (exn_cls e = TOMLDecodeError)
                     then parse_warning (config_path_of w) e
                     else read_warning (config_path_of w) e])).
Proof.
  intros He. rewrite load_config_reachable by eauto using attempt_entered.
  by rewrite He.
Qed.

(** C2.  [load_config] does raise past its boundary, in one on-disk state:
    when the path cannot be looked at ([stat] fails: no search permission on
    the directory, a name too long), [config_path.exists()], which stands
    before the [try], lets the exception through, and nothing is returned or
    printed.  In every other state it returns a [WikibeeConfig]: empty for a
    missing file, the same empty mapping for a file that cannot be read or
    parsed, and the document otherwise. *)
Theorem load_config_raises_when_stat_fails (w : World) :
  (∀ e, fs w !! config_path_of w = Some (Unreachable e) →
     load_config w = (Raise e, w)) ∧
  ((∀ e, fs w !! config_path_of w ≠ Some (Unreachable e)) →
   ∃ cfg w', load_config w = (Ok cfg, w') ∧
     (fs w !! config_path_of w = None → _data cfg = ∅) ∧
     (∀ e, fs w !! config_path_of w = Some (Unreadable e) → _data cfg = ∅) ∧
     (∀ content e, fs w !! config_path_of w = Some (Regular content) →
        tomli_loads content = Raise e → _data cfg = ∅) ∧
     (∀ content doc, fs w !! config_path_of w = Some (Regular content) →
        tomli_loads content = Ok doc → _data cfg = doc)).
Proof.
  split; [apply load_config_unreachable|].
  intros Hreach. rewrite (load_config_reachable w Hreach). unfold Loader.attempt.
  destruct (fs w !! config_path_of w) as [[content|e|e]|].
  - destruct (tomli_loads content) as [doc|e] eqn:Hp;
      eexists _, _; (split; [reflexivity|]); split_and!; try done;
      intros ? ? [= <-]; rewrite Hp; by intros [= <-].
  - eexists _, _; split; [reflexivity|]. split_and!; done.
  - by destruct (Hreach e).
  - eexists _, _; split; [reflexivity|]. split_and!; done.
Qed.

(** C4, as the code has it.  When the file is there and loading it raises,
    exactly one line is printed: ["Warning: Could not parse config file
    <path>: <message>"] if the exception is [tomli.TOMLDecodeError], and
    ["Warning: Could not read config file <path>: <message>"] for any other
    exception.  In every other case nothing is printed. *)
Theorem load_config_warning (w : World) :
  (∀ e, attempt w = Some (Raise e) → exn_cls e = TOMLDecodeError →
     stdout (load_config w).2 =
       (stdout w ++ [("Warning: Could not parse config file "
                        ++ config_path_of w ++ ": " ++ exn_str e)%string])%list) ∧
  (∀ e, attempt w = Some (Raise e) → exn_cls e ≠ TOMLDecodeError →
     stdout (load_config w).2 =
       (stdout w ++ [("Warning: Could not read config file "
                        ++ config_path_of w ++ ": " ++ exn_str e)%string])%list) ∧
  ((∀ e, attempt w ≠ Some (Raise e)) → stdout (load_config w).2 = stdout w).
Proof.
  split_and!.
  - intros e He Hc. rewrite (load_config_failure w e He). simpl.
    by rewrite decide_True.
  - intros e He Hc. rewrite (load_config_failure w e He). simpl.
    by rewrite decide_False.
  - apply load_config_silent.
Qed.

(** C5, as the code has it.  [load_config] returns the configuration object
    and nothing else, and prints its warning itself.  When the file is there
    and cannot be read or parsed, the value returned is the empty
    configuration, the same as for a missing file, and the one observable
    effect is a single line appended to standard output.  For a missing file
    and for a file that parses there is no effect at all.  The file system is
    never changed. *)
Theorem load_config_prints_warning (w : World) :
  fs (load_config w).2 = fs w ∧
  get_app_dir (load_config w).2 = get_app_dir w ∧
  (∀ e, attempt w = Some (Raise e) →
     ∃ line, load_config w =
               (Ok (mkWikibeeConfig ∅), with_stdout w (stdout w ++ [line]))) ∧
  (fs w !! config_path_of w = None →
     load_config w = (Ok (mkWikibeeConfig ∅), w)) ∧
  (∀ content doc, fs w !! config_path_of w = Some (Regular content) →
     tomli_loads content = Ok doc →
     load_config w = (Ok (mkWikibeeConfig doc), w)).
Proof.
  destruct (load_config_frame w) as [Hdir Hfs]. split_and!; try done.
  - intros e He. rewrite (load_config_failure w e He). eauto.
  - intros Hnone. rewrite load_config_eq, Hnone.
    by rewrite (attempt_missing w Hnone).
  - intros content doc Hreg Hp. rewrite load_config_eq, Hreg.
    by rewrite (attempt_regular w content Hreg), Hp.
Qed.

End WithParser.

Lemma load_config_raises_when_stat_fails_witness :
  load_config Sample.loads Sample.join Sample.denied_dir =
    (Raise Sample.denied, Sample.denied_dir).
Proof.
  apply (load_config_raises_when_stat_fails Sample.loads Sample.join
           Sample.denied_dir).
  reflexivity.
Defined.

(** C4, as stated, fails: with the file unreadable the line printed is the
    "Could not read" one, which is not of the "Could not parse config file"
    form and does not contain that text. *)
Lemma read_failure_not_parse_warning :
  attempt Sample.loads Sample.join Sample.denied_file
    = Some (Raise Sample.denied) ∧
  stdout (load_config Sample.loads Sample.join Sample.denied_file).2 =
    ["Warning: Could not read config file /home/user/.config/wikibee/config.toml: [Errno 13] Permission denied: '/home/user/.config/wikibee/config.toml'"] ∧
  stdout (load_config Sample.loads Sample.join Sample.denied_file).2 ≠
    (stdout Sample.denied_file ++
       [("Warning: Could not parse config file "
           ++ config_path_of Sample.join Sample.denied_file ++ ": "
           ++ exn_str Sample.denied)%string])%list.
Proof. split_and!; [reflexivity | reflexivity | discriminate]. Qed.

Lemma load_config_warning_witness :
  stdout (load_config Sample.loads Sample.join Sample.invalid_file).2 =
    ["Warning: Could not parse config file /home/user/.config/wikibee/config.toml: Invalid value (at line 1, column 16)"] ∧
  stdout (load_config Sample.loads Sample.join Sample.denied_file).2 =
    ["Warning: Could not read config file /home/user/.config/wikibee/config.toml: [Errno 13] Permission denied: '/home/user/.config/wikibee/config.toml'"] ∧
  stdout (load_config Sample.loads Sample.join Sample.empty_file).2 = [].
Proof.
  destruct (load_config_warning Sample.loads Sample.join Sample.invalid_file)
    as (Hparse & _ & _).
  destruct (load_config_warning Sample.loads Sample.join Sample.denied_file)
    as (_ & Hread & _).
  destruct (load_config_warning Sample.loads Sample.join Sample.empty_file)
    as (_ & _ & Hquiet).
  split_and!.
  - exact (Hparse (mkExn TOMLDecodeError "Invalid value (at line 1, column 16)")
             eq_refl eq_refl).
  - refine (Hread Sample.denied eq_refl _). discriminate.
  - apply Hquiet. intros e. discriminate.
Defined.

(** C5, as stated, fails: loading a file that does not parse writes to
    standard output, and the warning is not part of what is returned. *)
Lemma load_config_writes_stdout :
  load_config Sample.loads Sample.join Sample.invalid_file =
    (Ok (mkWikibeeConfig ∅),
     with_stdout Sample.invalid_file
       ["Warning: Could not parse config file /home/user/.config/wikibee/config.toml: Invalid value (at line 1, column 16)"]) ∧
  stdout (load_config Sample.loads Sample.join Sample.invalid_file).2 ≠
    stdout Sample.invalid_file.
Proof. split; [reflexivity | discriminate]. Qed.

Lemma load_config_prints_warning_witness :
  ∃ line,
    load_config Sample.loads Sample.join Sample.invalid_file =
      (Ok (mkWikibeeConfig ∅), with_stdout Sample.invalid_file [line]).
Proof.
  destruct (load_config_prints_warning Sample.loads Sample.join
              Sample.invalid_file) as (_ & _ & Hfail & _).
  exact (Hfail (mkExn TOMLDecodeError "Invalid value (at line 1, column 16)")
           eq_refl).
Defined.

End LoaderFacts.

(** ** Reading text *)

Module ReadingFacts.
Import Config Resolver.

Lemma digit_of_digit_char (d : nat) :
  (d < 10)%nat → digit_of (digit_char d) = Some (Z.of_nat d).
Proof.
  intros Hd. do 10 (destruct d as [|d]; [reflexivity|]). lia.
Qed.

Lemma parse_digits_step (acc : Z) (c : ascii) (s : string) :
  parse_digits acc (String c s) =
  match digit_of c with
  | Some d => parse_digits (10 * acc + d) s
  | None => None
  end.
Proof. reflexivity. Qed.

Lemma parse_digits_decimal (digits : list nat) (acc : Z) :
  Forall (λ d, (d < 10)%nat) digits →
  parse_digits acc (decimal digits)
  = Some (fold_left (λ a d, 10 * a + Z.of_nat d) digits acc).
Proof.
  intros Hds. revert acc.
  induction Hds as [|d rest Hd _ IH]; intros acc; [reflexivity|].
  cbn [decimal fold_left].
  rewrite parse_digits_step, (digit_of_digit_char d Hd). apply IH.
Qed.

Lemma parse_int_decimal (digits : list nat) :
  digits ≠ [] → Forall (λ d, (d < 10)%nat) digits →
  parse_int (decimal digits) = Some (decimal_value digits).
Proof.
  intros Hne Hds. destruct digits as [|d rest]; [done|].
  pose proof (parse_digits_decimal (d :: rest) 0 Hds) as Hp.
  pose proof (Forall_inv Hds) as Hd. simpl in Hd.
  do 10 (destruct d as [|d]; [exact Hp|]). lia.
Qed.

Lemma parse_int_negative (digits : list nat) :
  digits ≠ [] → Forall (λ d, (d < 10)%nat) digits →
  parse_int (String "-" (decimal digits)) = Some (- decimal_value digits).
Proof.
  intros Hne Hds. destruct digits as [|d rest]; [done|].
  pose proof (parse_digits_decimal (d :: rest) 0 Hds) as Hp.
  change (parse_int (String "-" (decimal (d :: rest))))
    with (Z.opp <$> parse_digits 0 (decimal (d :: rest))).
  by rewrite Hp.
Qed.

Lemma lower_ascii_capital (c : ascii) :
  (65 ≤ nat_of_ascii c)%nat → (nat_of_ascii c ≤ 90)%nat →
  lower_ascii c = ascii_of_nat (nat_of_ascii c + 32).
Proof.
  intros Hlo Hhi. unfold lower_ascii.
  replace (65 <=? nat_of_ascii c)%nat with true
    by (symmetry; apply Nat.leb_le; lia).
  replace (nat_of_ascii c <=? 90)%nat with true
    by (symmetry; apply Nat.leb_le; lia).
  reflexivity.
Qed.

Lemma lower_ascii_above (c : ascii) :
  (90 < nat_of_ascii c)%nat → lower_ascii c = c.
Proof.
  intros Hhi. unfold lower_ascii.
  replace (nat_of_ascii c <=? 90)%nat with false
    by (symmetry; apply Nat.leb_gt; lia).
  by rewrite andb_false_r.
Qed.

Lemma lower_same_letter (c d : ascii) :
  same_letter c d → lower_ascii c = lower_ascii d.
Proof.
  intros [-> | (Hlo & Hhi & Hd)]; [done|].
  rewrite (lower_ascii_capital c Hlo Hhi), (lower_ascii_above d) by lia.
  by rewrite <- Hd, ascii_nat_embedding.
Qed.

Lemma lower_spelled (t word : string) :
  spelled t word → lower t = lower word.
Proof.
  induction 1 as [|c d t word Hcd _ IH]; [done|].
  unfold lower in *. simpl. by rewrite (lower_same_letter c d Hcd), IH.
Qed.

Lemma parse_bool_true (t word : string) :
  word ∈ ["1"; "true"; "yes"; "on"] → spelled t word →
  parse_bool t = Some true.
Proof.
  intros Hw Hs. unfold parse_bool. rewrite (lower_spelled t word Hs).
  repeat (apply elem_of_cons in Hw as [-> | Hw]; [reflexivity|]).
  by apply elem_of_nil in Hw.
Qed.

Lemma parse_bool_false (t word : string) :
  word ∈ ["0"; "false"; "no"; "off"] → spelled t word →
  parse_bool t = Some false.
Proof.
  intros Hw Hs. unfold parse_bool. rewrite (lower_spelled t word Hs).
  repeat (apply elem_of_cons in Hw as [-> | Hw]; [reflexivity|]).
  by apply elem_of_nil in Hw.
Qed.

(** Text that reads as a value is coerced to that value. *)
Lemma coerce_for_reads (f : Field) (t : string) (v : pyval) :
  reads_as f t v → coerce_for f (VStr t) = Some v.
Proof.
  intros [t' Hty | ds Hty Hne Hds | ds Hty Hne Hds
          | t' word Hty Hw Hs | t' word Hty Hw Hs];
    destruct f; try discriminate;
    unfold coerce_for, coerce_int, coerce_bool, coerce_str.
  all: first [ reflexivity
             | by rewrite parse_int_decimal
             | by rewrite parse_int_negative
             | by rewrite (parse_bool_true _ word)
             | by rewrite (parse_bool_false _ word) ].
Qed.

(** A value of the field's own type is used as it is. *)
Lemma coerce_for_typed (f : Field) (v : pyval) :
  well_typed f v → coerce_for f v = Some v.
Proof. destruct f, v; simpl; done. Qed.

Lemma well_typed_not_None (f : Field) (v : pyval) :
  well_typed f v → v ≠ VNone.
Proof. destruct f, v; simpl; done. Qed.

End ReadingFacts.

(** ** The precedence chain *)

Module ResolverFacts.
Import Config Loader Resolver.

Lemma first_supplied_head {A} (a : A) (rest : list (option A)) :
  first_supplied (Some a :: rest) = Some a.
Proof. reflexivity. Qed.

Lemma first_supplied_skip {A} (rest : list (option A)) :
  first_supplied (None :: rest) = first_supplied rest.
Proof. reflexivity. Qed.

Section Chain.
Variable prefix : string.
Variable defaults : ResolvedSettings.

Local Abbreviation env_lookup := (env_lookup prefix).
Local Abbreviation resolve := (resolve prefix defaults).

Lemma env_lookup_set (environment : gmap string string) (f : Field) (s : string) :
  environment !! env_var prefix f = Some s → s ≠ "" →
  env_lookup environment f = Some (VStr s).
Proof.
  intros Hs Hne. unfold Resolver.env_lookup. rewrite Hs.
  destruct (String.eqb_spec s ""); [done|done].
Qed.

Lemma env_lookup_unset (environment : gmap string string) (f : Field) :
  environment !! env_var prefix f = None → env_lookup environment f = None.
Proof. intros Hs. unfold Resolver.env_lookup. by rewrite Hs. Qed.

Lemma file_lookup_found (store : WikibeeConfig) (f : Field)
    (sec : gmap string pyval) (v : pyval) :
  _data store !! (config_key f).1 = Some (VDict sec) →
  sec !! (config_key f).2 = Some v → v ≠ VNone →
  file_lookup store f = Some v.
Proof.
  intros Hs Hk Hv. unfold file_lookup, get2, get, dict_get.
  rewrite Hs, Hk. by destruct v.
Qed.

Lemma file_lookup_empty (f : Field) :
  file_lookup (mkWikibeeConfig ∅) f = None.
Proof.
  unfold file_lookup, get2, get, dict_get; simpl.
  by rewrite !lookup_empty.
Qed.

Lemma or_default_inj {A} (inj : A → pyval) (dflt : A) (o : option A) :
  inj (or_default dflt o) = or_default (inj dflt) (inj <$> o).
Proof. by destruct o. Qed.

Lemma or_default_opt_str (dflt o : option string) :
  opt_str (or_default_opt dflt o) = or_default (opt_str dflt) (VStr <$> o).
Proof. by destruct o. Qed.

Lemma chain_view {A} (inj : A → pyval) (coerce : pyval → option A)
    (cli : option A) (environment : gmap string string)
    (store : WikibeeConfig) (f : Field) :
  inj <$> chain prefix coerce cli environment store f =
  first_supplied
    [inj <$> cli;
     env_lookup environment f ≫= (λ v, inj <$> coerce v);
     file_lookup store f ≫= (λ v, inj <$> coerce v)].
Proof.
  unfold chain. destruct cli as [c|]; simpl; [done|].
  destruct (env_lookup environment f) as [ve|]; simpl.
  - destruct (coerce ve); simpl; [done|].
    destruct (file_lookup store f) as [vf|]; simpl; [|done].
    by destruct (coerce vf).
  - destruct (file_lookup store f) as [vf|]; simpl; [|done].
    by destruct (coerce vf).
Qed.

(** Each field of the result is the first value supplied along the chain, or
    the field's default. *)
Lemma resolve_field (cli_flags : CliFlags) (environment : gmap string string)
    (store : WikibeeConfig) (f : Field) :
  field_value f (resolve cli_flags environment store) =
  or_default (field_value f defaults)
    (first_supplied
       [cli_value f cli_flags;
        env_lookup environment f ≫= coerce_for f;
        file_lookup store f ≫= coerce_for f]).
Proof.
  destruct f; simpl;
    first [ rewrite or_default_opt_str | rewrite (or_default_inj VInt)
          | rewrite (or_default_inj VBool) ];
    by rewrite chain_view.
Qed.

Lemma resolve_nothing_supplied :
  resolve no_flags ∅ (mkWikibeeConfig ∅) = defaults.
Proof.
  unfold Resolver.resolve, chain; simpl.
  unfold Resolver.env_lookup. rewrite !lookup_empty.
  rewrite !file_lookup_empty. simpl. by destruct defaults as [[?|] ? ? ? ? ? [?|]].
Qed.

Lemma env_lookup_nothing (environment : gmap string string) (f : Field) :
  environment !! env_var prefix f = None ∨
    environment !! env_var prefix f = Some "" →
  env_lookup environment f = None.
Proof.
  unfold Resolver.env_lookup. by intros [-> | ->].
Qed.

Lemma file_lookup_nothing (store : WikibeeConfig) (f : Field) :
  _data store !! (config_key f).1 = None ∨
    (∃ sec, _data store !! (config_key f).1 = Some (VDict sec) ∧
            sec !! (config_key f).2 = None) →
  file_lookup store f = None.
Proof.
  unfold file_lookup, get2, get, dict_get.
  intros [-> | (sec & -> & ->)]; [by rewrite lookup_empty | done].
Qed.




(** C1.  Every field resolves to the first value supplied in the fixed order
    CLI flag (when explicitly passed), environment variable (when set), config
    file, hardcoded default: a value passed on the command line is the
    result; without it, what the text of the environment variable reads as;
    without that, the value of the field's type in the config file; and with
    none of the three, the default.  In particular, with [output_dir = A] in
    the file, [B] in the environment and [C] on the command line the result
    is [C]; without the flag it is [B]; without the environment variable as
    well it is [A]. *)
Theorem precedence_chain (f : Field) (cli_flags : CliFlags)
    (environment : gmap string string) (store : WikibeeConfig) :
  (∀ c, cli_value f cli_flags = Some c →
     field_value f (resolve cli_flags environment store) = c) ∧
  (cli_value f cli_flags = None →
   ∀ t b, environment !! env_var prefix f = Some t → t ≠ "" →
     reads_as f t b →
     field_value f (resolve cli_flags environment store) = b) ∧
  (cli_value f cli_flags = None →
   environment !! env_var prefix f = None ∨
     environment !! env_var prefix f = Some "" →
   ∀ sec a, _data store !! (config_key f).1 = Some (VDict sec) →
     sec !! (config_key f).2 = Some a → well_typed f a →
     field_value f (resolve cli_flags environment store) = a) ∧
  (cli_value f cli_flags = None →
   environment !! env_var prefix f = None ∨
     environment !! env_var prefix f = Some "" →
   _data store !! (config_key f).1 = None ∨
     (∃ sec, _data store !! (config_key f).1 = Some (VDict sec) ∧
             sec !! (config_key f).2 = None) →
   field_value f (resolve cli_flags environment store)
   = field_value f defaults) ∧
  (∀ sec A B C,
     _data store !! "general" = Some (VDict sec) →
     sec !! "output_dir" = Some (VStr A) →
     B ≠ "" →
     (cli_output_dir cli_flags = Some C →
      environment !! env_var prefix FOutputDir = Some B →
      output_dir (resolve cli_flags environment store) = Some C) ∧
     (cli_output_dir cli_flags = None →
      environment !! env_var prefix FOutputDir = Some B →
      output_dir (resolve cli_flags environment store) = Some B) ∧
     (cli_output_dir cli_flags = None →
      environment !! env_var prefix FOutputDir = None →
      output_dir (resolve cli_flags environment store) = Some A)).
Proof.
  split_and!.
  - intros c Hc. by rewrite resolve_field, Hc.
  - intros Hcli t b Ht Hne Hread.
    rewrite resolve_field, Hcli, (env_lookup_set _ _ t Ht Hne).
    change (Some (VStr t) ≫= coerce_for f) with (coerce_for f (VStr t)).
    by rewrite (ReadingFacts.coerce_for_reads f t b Hread).
  - intros Hcli Henv sec a Hs Hk Hty.
    rewrite resolve_field, Hcli, (env_lookup_nothing _ _ Henv).
    rewrite (file_lookup_found store f sec a Hs Hk)
      by eauto using ReadingFacts.well_typed_not_None.
    change (Some a ≫= coerce_for f) with (coerce_for f a).
    by rewrite (ReadingFacts.coerce_for_typed f a Hty).
  - intros Hcli Henv Hfile.
    by rewrite resolve_field, Hcli, (env_lookup_nothing _ _ Henv),
      (file_lookup_nothing _ _ Hfile).
  - intros sec A B C Hs Hk HB. split_and!.
    + intros Hc _. simpl. unfold chain. by rewrite Hc.
    + intros Hc Henv. simpl. unfold chain.
      rewrite Hc, (env_lookup_set _ _ B Henv HB). done.
    + intros Hc Henv. simpl. unfold chain.
      rewrite Hc, (env_lookup_unset _ _ Henv).
      rewrite (file_lookup_found store FOutputDir sec (VStr A)); done.
Qed.

(** C6.  With [general.auto_select = true] in the config file, and neither a
    CLI flag nor the environment supplying the setting, the resolved [yolo] is
    [true].  The alias table sends the file key [general.auto_select] to the
    field [yolo] and to no other, and no field of the resolved record is
    named [auto_select]. *)
Theorem auto_select_is_yolo (cli_flags : CliFlags)
    (environment : gmap string string) (store : WikibeeConfig)
    (sec : gmap string pyval) :
  _data store !! "general" = Some (VDict sec) →
  sec !! "auto_select" = Some (VBool true) →
  cli_yolo cli_flags = None →
  env_lookup environment FYolo ≫= coerce_bool = None →
  yolo (resolve cli_flags environment store) = true ∧
  config_key FYolo = ("general", "auto_select") ∧
  (∀ f, config_key f = ("general", "auto_select") → f = FYolo) ∧
  (∀ f, field_name f ≠ "auto_select").
Proof.
  intros Hs Hk Hcli Henv. split_and!.
  - simpl. unfold chain. rewrite Hcli, Henv.
    rewrite (file_lookup_found store FYolo sec (VBool true)); done.
  - reflexivity.
  - intros f. by destruct f.
  - intros f. by destruct f.
Qed.

Section FromDisk.
Variable tomli_loads : list byte → result (gmap string pyval).
Variable path_join : string → string → string.

Local Abbreviation load_config := (load_config tomli_loads path_join).
Local Abbreviation config_path_of := (config_path_of path_join).

(** C7.  When the config file is absent, and when it is present but holds an
    empty document, loading it and resolving with no environment variables
    and no explicit CLI flags gives exactly the hardcoded defaults, and no
    warning is printed: the world is left as it was. *)
Theorem defaults_when_nothing_set (w : World) :
  fs w !! config_path_of w = None ∨
    (∃ content, fs w !! config_path_of w = Some (Regular content) ∧
                tomli_loads content = Ok ∅) →
  ∃ store,
    load_config w = (Ok store, w) ∧
    resolve no_flags ∅ store = defaults ∧
    stdout (load_config w).2 = stdout w.
Proof.
  intros Hfile. exists (mkWikibeeConfig ∅).
  rewrite LoaderFacts.load_config_eq.
  destruct Hfile as [Hnone | (content & Hreg & Hparse)].
  - rewrite Hnone, (LoaderFacts.attempt_missing _ _ _ Hnone).
    split_and!; [done | apply resolve_nothing_supplied | done].
  - rewrite Hreg, (LoaderFacts.attempt_regular _ _ _ _ Hreg), Hparse.
    split_and!; [done | apply resolve_nothing_supplied | done].
Qed.


End FromDisk.

End Chain.

Lemma precedence_chain_witness :
  (output_dir (resolve "WIKIBEE_" Sample.defaults Sample.flags Sample.env Sample.store)
     = Some "/tmp/from_cli" ∧
   output_dir (resolve "WIKIBEE_" Sample.defaults no_flags Sample.env Sample.store)
     = Some "/tmp/from_env" ∧
   output_dir (resolve "WIKIBEE_" Sample.defaults no_flags ∅ Sample.store)
     = Some "/tmp/from_config") ∧
  field_value FRetries
    (resolve "WIKIBEE_" Sample.defaults no_flags
       {[ "WIKIBEE_RETRIES" := "-12" ]} Sample.store) = VInt (-12) ∧
  field_value FVerbose
    (resolve "WIKIBEE_" Sample.defaults no_flags
       {[ "WIKIBEE_VERBOSE" := "Yes" ]} Sample.store) = VBool true ∧
  field_value FYolo
    (resolve "WIKIBEE_" Sample.defaults no_flags ∅ Sample.store) = VBool true ∧
  field_value FSearchLimit
    (resolve "WIKIBEE_" Sample.defaults no_flags ∅ Sample.store) = VInt 10.
Proof.
  split_and!.
  - destruct (precedence_chain "WIKIBEE_" Sample.defaults FOutputDir
                Sample.flags Sample.env Sample.store) as (_ & _ & _ & _ & H).
    destruct (H Sample.general "/tmp/from_config" "/tmp/from_env" "/tmp/from_cli")
      as (Hcli & _ & _); [reflexivity | reflexivity | discriminate |].
    apply Hcli; reflexivity.
  - destruct (precedence_chain "WIKIBEE_" Sample.defaults FOutputDir
                no_flags Sample.env Sample.store) as (_ & _ & _ & _ & H).
    destruct (H Sample.general "/tmp/from_config" "/tmp/from_env" "/tmp/from_cli")
      as (_ & Henv & _); [reflexivity | reflexivity | discriminate |].
    apply Henv; reflexivity.
  - destruct (precedence_chain "WIKIBEE_" Sample.defaults FOutputDir
                no_flags ∅ Sample.store) as (_ & _ & _ & _ & H).
    destruct (H Sample.general "/tmp/from_config" "/tmp/from_env" "/tmp/from_cli")
      as (_ & _ & Hfile); [reflexivity | reflexivity | discriminate |].
    apply Hfile; reflexivity.
  - destruct (precedence_chain "WIKIBEE_" Sample.defaults FRetries no_flags
                {[ "WIKIBEE_RETRIES" := "-12" ]} Sample.store)
      as (_ & Henv & _).
    apply (Henv eq_refl "-12"); [reflexivity | discriminate |].
    apply (reads_negative FRetries [1; 2]%nat); [reflexivity | discriminate |].
    repeat constructor.
  - destruct (precedence_chain "WIKIBEE_" Sample.defaults FVerbose no_flags
                {[ "WIKIBEE_VERBOSE" := "Yes" ]} Sample.store)
      as (_ & Henv & _).
    apply (Henv eq_refl "Yes"); [reflexivity | discriminate |].
    apply (reads_true FVerbose "Yes" "yes"); [reflexivity | set_solver |].
    constructor; [right; vm_compute; lia|].
    repeat (constructor; [by left|]). constructor.
  - destruct (precedence_chain "WIKIBEE_" Sample.defaults FYolo no_flags ∅
                Sample.store) as (_ & _ & Hfile & _).
    apply (Hfile eq_refl (or_introl eq_refl) Sample.general);
      [reflexivity | reflexivity | exact I].
  - destruct (precedence_chain "WIKIBEE_" Sample.defaults FSearchLimit no_flags ∅
                Sample.store) as (_ & _ & _ & Hdflt & _).
    apply (Hdflt eq_refl (or_introl eq_refl)). left. reflexivity.
Defined.

Lemma auto_select_is_yolo_witness :
  yolo (resolve "WIKIBEE_" Sample.defaults no_flags ∅ Sample.store) = true.
Proof.
  apply (auto_select_is_yolo "WIKIBEE_" Sample.defaults no_flags ∅ Sample.store
           Sample.general); reflexivity.
Defined.

Lemma defaults_when_nothing_set_witness :
  (∃ store,
     load_config Sample.loads Sample.join Sample.no_file
       = (Ok store, Sample.no_file) ∧
     resolve "WIKIBEE_" Sample.defaults no_flags ∅ store = Sample.defaults) ∧
  (∃ store,
     load_config Sample.loads Sample.join Sample.empty_file
       = (Ok store, Sample.empty_file) ∧
     resolve "WIKIBEE_" Sample.defaults no_flags ∅ store = Sample.defaults).
Proof.
  split.
  - destruct (defaults_when_nothing_set "WIKIBEE_" Sample.defaults Sample.loads
                Sample.join Sample.no_file) as (store & Hrun & Hres & _).
    + left. reflexivity.
    + exists store. split; assumption.
  - destruct (defaults_when_nothing_set "WIKIBEE_" Sample.defaults Sample.loads
                Sample.join Sample.empty_file) as (store & Hrun & Hres & _).
    + right. exists []. split; reflexivity.
    + exists store. split; assumption.
Defined.


End ResolverFacts.

(** ** More on [WikibeeConfig.get] *)

Module ConfigMore.
Import Config.

(** X1.  Whether [get] raises is decided by the section alone: for one
    configuration and one section name, the call raises for every key and
    default or for none. *)
Theorem get_raises_by_section (self : WikibeeConfig) (section : string)
    (key key' : string) (default default' : pyval) :
  raises (get self section key default) = raises (get self section key' default').
Proof.
  destruct self as [data].
  destruct (data !! section) as [v|] eqn:Hs.
  - destruct (is_dict v) eqn:Hv.
    + destruct v; try discriminate.
      by rewrite !(ConfigFacts.get_in_section _ _ _ _ d Hs).
    + by rewrite !(ConfigFacts.get_not_a_table _ _ _ _ v Hs Hv).
  - by rewrite !ConfigFacts.get_no_section.
Qed.

(** X2.  [get] invents nothing: a value it returns is the default it was
    given, or is stored under that key in a section that is a mapping. *)
Theorem get_returns_default_or_stored (data : gmap string pyval)
    (section key : string) (default r : pyval) :
  get (mkWikibeeConfig data) section key default = Ok r →
  r = default ∨
  ∃ sec, data !! section = Some (VDict sec) ∧ sec !! key = Some r.
Proof.
  destruct (data !! section) as [v|] eqn:Hs.
  - destruct (is_dict v) eqn:Hv.
    + destruct v; try discriminate.
      rewrite (ConfigFacts.get_in_section _ _ _ _ d Hs). unfold dict_get.
      destruct (d !! key) as [x|] eqn:Hk; intros [= <-]; eauto.
    + by rewrite (ConfigFacts.get_not_a_table _ _ _ _ v Hs Hv).
  - rewrite ConfigFacts.get_no_section by done. intros [= <-]. by left.
Qed.

Lemma get_returns_default_or_stored_witness :
  VBool true = VBool false ∨
  ∃ sec, _data Sample.store !! "general" = Some (VDict sec) ∧
         sec !! "auto_select" = Some (VBool true).
Proof.
  apply (get_returns_default_or_stored _ "general" "auto_select" (VBool false)).
  reflexivity.
Defined.

(** X3.  [None] works as the "absent" marker: as long as the section does not
    store [None] under the key (a TOML document never does), [get] with any
    default is the two-argument call with [None] replaced by that default. *)
Theorem get_by_way_of_None (data : gmap string pyval)
    (section key : string) (default : pyval) :
  (∀ sec, data !! section = Some (VDict sec) → sec !! key ≠ Some VNone) →
  get (mkWikibeeConfig data) section key default =
  match get2 (mkWikibeeConfig data) section key with
  | Ok VNone => Ok default
  | r => r
  end.
Proof.
  intros Hnone. unfold get2.
  destruct (data !! section) as [v|] eqn:Hs.
  - destruct (is_dict v) eqn:Hv.
    + destruct v; try discriminate.
      rewrite !(ConfigFacts.get_in_section _ _ _ _ d Hs). unfold dict_get.
      specialize (Hnone d eq_refl).
      destruct (d !! key) as [[]|]; try done.
    + by rewrite !(ConfigFacts.get_not_a_table _ _ _ _ v Hs Hv).
  - by rewrite !ConfigFacts.get_no_section.
Qed.

Lemma get_by_way_of_None_witness :
  get Sample.store "general" "retries" (VInt 3) = Ok (VInt 3) ∧
  get Sample.store "general" "auto_select" (VBool false) = Ok (VBool true).
Proof.
  split.
  - refine (get_by_way_of_None (_data Sample.store) "general" "retries"
              (VInt 3) _).
    intros sec [= <-]. discriminate.
  - refine (get_by_way_of_None (_data Sample.store) "general" "auto_select"
              (VBool false) _).
    intros sec [= <-]. discriminate.
Defined.

(** X4.  Keys do not interfere.  After one key of one section is set (the
    section being [sec] before, or new with [sec] empty), [get] finds the new
    value under that key, answers for the other keys of the section as [sec]
    did, and answers for every other section as before. *)
Theorem get_after_set (data sec : gmap string pyval) (section key : string)
    (v : pyval) (section' key' : string) (default : pyval) :
  get (mkWikibeeConfig (<[section := VDict (<[key := v]> sec)]> data))
      section key default = Ok v ∧
  (key' ≠ key →
   get (mkWikibeeConfig (<[section := VDict (<[key := v]> sec)]> data))
       section key' default = Ok (dict_get sec key' default)) ∧
  (section' ≠ section →
   get (mkWikibeeConfig (<[section := VDict (<[key := v]> sec)]> data))
       section' key' default = get (mkWikibeeConfig data) section' key' default).
Proof.
  split_and!.
  - rewrite (ConfigFacts.get_in_section _ _ _ _ (<[key := v]> sec))
      by apply lookup_insert_eq.
    unfold dict_get. by rewrite lookup_insert_eq.
  - intros Hk.
    rewrite (ConfigFacts.get_in_section _ _ _ _ (<[key := v]> sec))
      by apply lookup_insert_eq.
    unfold dict_get. by rewrite lookup_insert_ne.
  - intros Hs. unfold get, dict_get; simpl. by rewrite lookup_insert_ne.
Qed.

End ConfigMore.

(** ** More on [load_config] *)

Module LoaderMore.
Import Config Loader Outcome.

Lemma with_stdout_id (w : World) : with_stdout w (stdout w) = w.
Proof. by destruct w. Qed.

Lemma with_stdout_twice (w : World) (out out' : list string) :
  with_stdout (with_stdout w out) out' = with_stdout w out'.
Proof. reflexivity. Qed.

Section WithParser.
Variable tomli_loads : list byte → result (gmap string pyval).
Variable path_join : string → string → string.

Local Abbreviation load_config := (load_config tomli_loads path_join).
Local Abbreviation attempt := (attempt tomli_loads path_join).
Local Abbreviation outcome := (outcome tomli_loads path_join).
Local Abbreviation config_path_of := (config_path_of path_join).

Lemma outcome_with_stdout (w : World) (printed : list string) :
  outcome (with_stdout w printed) = outcome w.
Proof. reflexivity. Qed.

(** [load_config] started with [printed] on standard output. *)
Lemma load_config_outcome (w : World) (printed : list string) :
  load_config (with_stdout w printed) =
  ((outcome w).1, with_stdout w (printed ++ (outcome w).2)).
Proof.
  rewrite LoaderFacts.load_config_eq. unfold Outcome.outcome, Loader.attempt.
  change (Loader.config_path_of path_join (with_stdout w printed))
    with (config_path_of w).
  change (fs (with_stdout w printed)) with (fs w).
  destruct (fs w !! config_path_of w) as [[content|e|e]|]; simpl;
    rewrite ?app_nil_r; try done.
  destruct (tomli_loads content) as [doc|e]; simpl; rewrite ?app_nil_r; done.
Qed.

Lemma load_config_outcome_here (w : World) :
  load_config w = ((outcome w).1, with_stdout w (stdout w ++ (outcome w).2)).
Proof.
  rewrite <- (with_stdout_id w) at 1. apply load_config_outcome.
Qed.

Lemma outcome_agree (w1 w2 : World) :
  get_app_dir w1 "wikibee" = get_app_dir w2 "wikibee" →
  fs w1 !! config_path_of w1 = fs w2 !! config_path_of w2 →
  outcome w1 = outcome w2.
Proof.
  intros Hdir Hfs. unfold Outcome.outcome.
  rewrite Hfs. unfold Loader.config_path_of. by rewrite Hdir.
Qed.

(** X5.  [load_config] looks at one file only.  Two worlds that agree on the
    directory [get_app_dir("wikibee")] answers with, and on what is at
    [config.toml] in it, get the same configuration back and the same lines
    printed, whatever else is in their file systems and whatever was printed
    before. *)
Theorem load_config_reads_one_file (w1 w2 : World) :
  get_app_dir w1 "wikibee" = get_app_dir w2 "wikibee" →
  fs w1 !! config_path_of w1 = fs w2 !! config_path_of w2 →
  (load_config w1).1 = (load_config w2).1 ∧
  ∃ out, stdout (load_config w1).2 = (stdout w1 ++ out)%list ∧
         stdout (load_config w2).2 = (stdout w2 ++ out)%list.
Proof.
  intros Hdir Hfs. rewrite !load_config_outcome_here.
  rewrite (outcome_agree w1 w2 Hdir Hfs). simpl. eauto.
Qed.

(** X6.  Loading twice in a row ends the same way both times, with the same
    configuration or with the same exception, and what the first call printed
    is printed once more by the second: the warning for a broken file comes
    once per call. *)
Theorem load_config_again (w : World) :
  ∃ r out,
    load_config w = (r, with_stdout w (stdout w ++ out)) ∧
    load_config (load_config w).2 =
      (r, with_stdout w (stdout w ++ out ++ out)).
Proof.
  exists (outcome w).1, (outcome w).2.
  rewrite load_config_outcome_here. simpl.
  split; [done|]. rewrite load_config_outcome. by rewrite <- app_assoc.
Qed.

(** X7.  When a load that found no file, or a file it could not read or
    parse, returns a configuration, every lookup in it falls back: [get]
    never raises and answers with the default it is given, for every section
    and key. *)
Theorem get_after_failed_load (w w' : World) (cfg : WikibeeConfig) :
  load_config w = (Ok cfg, w') →
  (∀ doc, attempt w ≠ Some (Ok doc)) →
  ∀ section key default, get cfg section key default = Ok default.
Proof.
  rewrite LoaderFacts.load_config_eq. intros Hrun Hfail section key default.
  assert (cfg = mkWikibeeConfig ∅) as ->.
  { destruct (fs w !! config_path_of w) as [[content|e|e]|];
      try discriminate;
      (destruct (attempt w) as [[doc|e']|];
       [by destruct (Hfail doc) | by injection Hrun as <- | by injection Hrun as <-]). }
  by apply ConfigFacts.get_no_section.
Qed.

End WithParser.

Lemma load_config_reads_one_file_witness :
  (load_config Sample.loads Sample.join Sample.invalid_file).1 =
  (load_config Sample.loads Sample.join
     (mkWorld (get_app_dir Sample.invalid_file)
        (<[ "/tmp/other.toml" := Regular [] ]> (fs Sample.invalid_file))
        ["printed before"])).1.
Proof.
  refine (proj1 (load_config_reads_one_file Sample.loads Sample.join
                   Sample.invalid_file
                   (mkWorld (get_app_dir Sample.invalid_file)
                      (<[ "/tmp/other.toml" := Regular [] ]>
                         (fs Sample.invalid_file))
                      ["printed before"]) _ _)); reflexivity.
Defined.

Lemma get_after_failed_load_witness :
  get (mkWikibeeConfig ∅) "general" "retries" (VInt 3) = Ok (VInt 3).
Proof.
  refine (get_after_failed_load Sample.loads Sample.join Sample.denied_file
            _ (mkWikibeeConfig ∅) eq_refl _ "general" "retries" (VInt 3)).
  intros doc. discriminate.
Defined.

End LoaderMore.
